(** * Alexa flash briefings endpoint

    A shallow embedding of
    [homeassistant/components/alexa/flash_briefings.py]: the view
    [AlexaFlashBriefingView], its request handler [get] and the helpers
    [validate_password], [is_valid_briefing], [process_item],
    [add_attribute_to_output] and [get_uid].

    Python objects are modelled by the inductive [value]; dictionaries are
    finite maps.  The handler reads the clock, draws entropy, renders
    templates, writes log records and may raise: all of that is threaded
    through a state-and-exception monad over [world]. *)

From Stdlib Require Import ZArith NArith Ascii String List Lia.
From Stdlib.Strings Require Import Byte.
From stdpp Require Import base option list strings gmap fin_maps pretty.

Local Open Scope string_scope.

(** ** Python values *)

(** A [template.Template] object, identified by its source text. *)
Record Template := { template : string }.

#[warnings="-register-all"]
Inductive value :=
| VNone
| VBool (b : bool)
| VInt (z : Z)
| VStr (s : string)
| VTemplate (t : Template)
| VList (l : list value)
| VDict (d : gmap string value).

(** [isinstance(v, list)] *)
Definition isinstance_list (v : value) : bool :=
  match v with VList _ => true | _ => false end.

(** [isinstance(v, template.Template)] *)
Definition isinstance_Template (v : value) : bool :=
  match v with VTemplate _ => true | _ => false end.

(** [v is not None] *)
Definition is_not_None (v : value) : bool :=
  match v with VNone => false | _ => true end.

(** Exceptions the handler can let escape. *)
Inductive exn :=
| KeyError (key : string)
| AttributeError (attr : string)
| TypeError (msg : string)
| TemplateError (msg : string).

Inductive result (A : Type) :=
| Ok (a : A)
| Raise (e : exn).
Arguments Ok {A} a.
Arguments Raise {A} e.

(** ** The world the handler runs in *)

(** A [datetime.datetime] value (UTC). *)
Record datetime := {
  year : Z; month : Z; day : Z;
  hour : Z; minute : Z; second : Z; microsecond : Z }.

Inductive levelname := DEBUG | ERROR.

(** A record handed to [_LOGGER]: level, format string and arguments. *)
Record log_record := {
  level : levelname;
  msg : string;
  args : list string }.

(** What lies outside the component: the system clock read by
    [dt_util.utcnow], the entropy behind [uuid.uuid4] (each draw is the
    16 bytes of [os.urandom(16)] read as a big-endian number), the outcome
    of rendering every template against the state of the host at the time
    of the request, and the log. *)
Record world := {
  clock : nat → datetime;
  ticks : nat;
  urandom : nat → N;
  draws : nat;
  rendering : Template → result string;
  log : list log_record }.

Definition tick (w : world) : world :=
  {| clock := clock w; ticks := S (ticks w); urandom := urandom w;
     draws := draws w; rendering := rendering w; log := log w |}.

Definition draw (w : world) : world :=
  {| clock := clock w; ticks := ticks w; urandom := urandom w;
     draws := S (draws w); rendering := rendering w; log := log w |}.

Definition emit (r : log_record) (w : world) : world :=
  {| clock := clock w; ticks := ticks w; urandom := urandom w;
     draws := draws w; rendering := rendering w; log := log w ++ [r] |}.

(** ** State and exception monad *)

Definition M (A : Type) : Type := world → result A * world.

#[global] Instance M_ret : MRet M := λ A a w, (Ok a, w).
#[global] Instance M_bind : MBind M := λ A B f m w,
  match m w with
  | (Ok a, w') => f a w'
  | (Raise e, w') => (Raise e, w')
  end.

Definition raise {A} (e : exn) : M A := λ w, (Raise e, w).

Definition utcnow : M datetime := λ w, (Ok (clock w (ticks w)), tick w).
Definition os_urandom16 : M N := λ w, (Ok (urandom w (draws w) mod 2 ^ 128)%N, draw w).
Definition render_text (t : Template) : M string := λ w,
  match rendering w t with
  | Ok s => (Ok s, w)
  | Raise e => (Raise e, w)
  end.
Definition logger (l : levelname) (m : string) (a : list string) : M unit :=
  λ w, (Ok tt, emit {| level := l; msg := m; args := a |} w).

(** ** Library functions the component calls *)

(** [str.encode("utf-8")]: a Python [str] is carried as the byte string of
    its UTF-8 form, so encoding only changes the type. *)
Definition encode_utf8 (s : string) : list byte := list_byte_of_string s.

(** [hmac.compare_digest] on two byte strings, following CPython's
    [_tscmp]: when the lengths differ the second operand is compared with
    itself and the result is forced to a mismatch; the loop visits every
    position and accumulates the XOR of the bytes, with no early exit. *)
Fixpoint tscmp (left right : list byte) (acc : N) : N :=
  match left, right with
  | x :: left', y :: right' =>
      tscmp left' right' (N.lor acc (N.lxor (Byte.to_N x) (Byte.to_N y)))
  | _, _ => acc
  end.

Definition compare_digest (a b : list byte) : bool :=
  if Nat.eqb (length a) (length b)
  then N.eqb (tscmp a b 0) 0
  else N.eqb (tscmp b b 1) 0.

(** [uuid.UUID(bytes=..., version=4)]: the variant and version bits are
    overwritten, the other 122 bits are kept. *)
Definition UUID_version4 (int : N) : N :=
  let int := N.ldiff int (N.shiftl 0xc000 48) in
  let int := N.lor int (N.shiftl 0x8000 48) in
  let int := N.ldiff int (N.shiftl 0xf000 64) in
  N.lor int (N.shiftl 4 76).

(** [uuid.uuid4()] *)
Definition uuid4 : M N :=
  bytes ← os_urandom16; mret (UUID_version4 bytes).

Definition hexdigit (d : N) : ascii :=
  match d with
  | 0 => "0" | 1 => "1" | 2 => "2" | 3 => "3" | 4 => "4" | 5 => "5"
  | 6 => "6" | 7 => "7" | 8 => "8" | 9 => "9" | 10 => "a" | 11 => "b"
  | 12 => "c" | 13 => "d" | 14 => "e" | _ => "f"
  end%N%char.

(** The [n] low hexadecimal digits of [x], most significant first:
    ['%032x' % x] for [n = 32] and [x < 2 ^ 128]. *)
Fixpoint hex (n : nat) (x : N) : list ascii :=
  match n with
  | O => []
  | S n' => hex n' (x / 16) ++ [hexdigit (x mod 16)]
  end.

(** [str(u)] for a [uuid.UUID] with integer value [int]:
    the 32 digits cut 8-4-4-4-12 and joined with hyphens. *)
Definition str_UUID (int : N) : string :=
  let h := hex 32 int in
  let dash := ["-"%char] in
  string_of_list_ascii
    (take 8 h ++ dash ++ take 4 (drop 8 h) ++ dash ++ take 4 (drop 12 h)
       ++ dash ++ take 4 (drop 16 h) ++ dash ++ drop 20 h).

(** Python's [dict.get(key)]: [None] when the key is missing. *)
Definition dict_get (d : gmap string value) (key : string) : value :=
  default VNone (d !! key).

(** [obj.get(key)] on an arbitrary object: only dictionaries have it. *)
Definition py_get (obj : value) (key : string) : M value :=
  match obj with
  | VDict d => mret (dict_get d key)
  | _ => raise (AttributeError "get")
  end.

(** [obj[key]] with a string key. *)
Definition py_getitem (obj : value) (key : string) : M value :=
  match obj with
  | VDict d =>
      match d !! key with
      | Some v => mret v
      | None => raise (KeyError key)
      end
  | _ => raise (TypeError "subscript")
  end.

(** [obj.encode("utf-8")]: only [str] has it. *)
Definition py_encode (obj : value) : M (list byte) :=
  match obj with
  | VStr s => mret (encode_utf8 s)
  | _ => raise (AttributeError "encode")
  end.

(** The elements a [for] loop sees.  Dictionary keys come in the order
    of the finite map, not in insertion order. *)
Definition py_iter (obj : value) : M (list value) :=
  match obj with
  | VList l => mret l
  | VStr s => mret ((λ c, VStr (String c EmptyString)) <$> list_ascii_of_string s)
  | VDict d => mret ((λ kv, VStr kv.1) <$> map_to_list d)
  | _ => raise (TypeError "not iterable")
  end.

(** Truth value of a dictionary: non-empty. *)
Definition truthy (d : gmap string value) : bool :=
  negb (bool_decide (d = ∅)).

(** [MultiDict.get(key)] on the query string: the first value, if any. *)
Fixpoint query_get (q : list (string * string)) (key : string) : option string :=
  match q with
  | [] => None
  | (k, v) :: q' => if String.eqb k key then Some v else query_get q' key
  end.

(** [MultiDict[key]] *)
Definition query_getitem (q : list (string * string)) (key : string) : M string :=
  match query_get q key with
  | Some v => mret v
  | None => raise (KeyError key)
  end.

(** ** Parameters of the component *)

(** The constants imported from [.const] and [homeassistant.const],
    whose defining files are not part of the component. *)
Class Const := {
  API_PASSWORD : string;
  CONF_PASSWORD : string;
  ATTR_MAIN_TEXT : string;
  ATTR_REDIRECTION_URL : string;
  ATTR_STREAM_URL : string;
  ATTR_TITLE_TEXT : string;
  ATTR_UID : string;
  ATTR_UPDATE_DATE : string;
  CONF_AUDIO : string;
  CONF_DISPLAY_URL : string;
  CONF_TEXT : string;
  CONF_TITLE : string;
  CONF_UID : string;
  DATE_FORMAT : string }.

(** Library functions that are left abstract: [datetime.strftime], the
    [repr] that [str] falls back to on lists, dictionaries and [Template]
    objects, and the parser [Template.async_render] applies to its output
    when asked for a native result. *)
Class Builtins := {
  strftime : datetime → string → string;
  repr_object : value → string;
  parse_result_native : string → value }.

Inductive HTTPStatus := OK | UNAUTHORIZED | NOT_FOUND.

(** The numeric value of an [HTTPStatus] member. *)
Definition status_value (s : HTTPStatus) : Z :=
  match s with OK => 200 | UNAUTHORIZED => 401 | NOT_FOUND => 404 end.

(** What [get] returns: a pair of a body and a status, or the response
    built by [self.json]. *)
Inductive response :=
| BodyStatus (body : list byte) (status : HTTPStatus)
| JsonResponse (result : list (gmap string value)) (status_code : HTTPStatus).

Record HomeAssistantRequest := { query : list (string * string) }.

Record AlexaFlashBriefingView := { flash_briefings : gmap string value }.

Section FlashBriefings.
Context {K : Const} {B : Builtins}.

(** The builtin [str]. *)
Definition py_str (v : value) : string :=
  match v with
  | VNone => "None"
  | VBool true => "True"
  | VBool false => "False"
  | VInt z => pretty z
  | VStr s => s
  | _ => repr_object v
  end.

(** Modelled from the spec: [Template.async_render] is defined in
    [homeassistant/helpers/template.py], which is missing here.  With
    [parse_result=False] the template is rendered "as plain text, not
    parsed as a richer value"; a rendering failure propagates. *)
Definition async_render (t : Template) (parse_result : bool) : M value :=
  s ← render_text t;
  mret (if parse_result then parse_result_native s else VStr s).

(** Modelled from the spec: [HomeAssistantView.json] is defined in
    [homeassistant/components/http], which is missing here: "a JSON array
    body with status 200 and the framework's standard JSON content type".
    The serialisation is left symbolic. *)
Definition json (result : list (gmap string value)) : response :=
  JsonResponse result OK.

(** ** The view *)

Definition validate_password (self : AlexaFlashBriefingView)
    (request : HomeAssistantRequest) : M bool :=
  match query_get (query request) API_PASSWORD with
  | None =>
      logger ERROR "No password provided for Alexa flash briefing" [];;
      mret false
  | Some _ =>
      given ← query_getitem (query request) API_PASSWORD;
      configured ← py_getitem (VDict (flash_briefings self)) CONF_PASSWORD;
      configured ← py_encode configured;
      if negb (compare_digest (encode_utf8 given) configured) then
        logger ERROR "Wrong password for Alexa flash briefing" [];;
        mret false
      else mret true
  end.

Definition is_valid_briefing (self : AlexaFlashBriefingView)
    (briefing_id : string) : M bool :=
  if negb (isinstance_list (dict_get (flash_briefings self) briefing_id)) then
    logger ERROR "No configured Alexa flash briefing was found for: %s"
      [briefing_id];;
    mret false
  else mret true.

(** [obj.async_render(parse_result=...)]: only templates have it. *)
Definition py_async_render (obj : value) (parse_result : bool) : M value :=
  match obj with
  | VTemplate t => async_render t parse_result
  | _ => raise (AttributeError "async_render")
  end.

(** [output] is the dictionary the source updates in place; the updated
    dictionary is returned. *)
Definition add_attribute_to_output (item : value) (conf_key : string)
    (output : gmap string value) (output_key : string)
    : M (gmap string value) :=
  v ← py_get item conf_key;
  if is_not_None v then
    v ← py_getitem item conf_key;
    if isinstance_Template v then
      v ← py_getitem item conf_key;
      rendered ← py_async_render v false;
      mret (<[output_key := rendered]> output)
    else
      v ← py_get item conf_key;
      mret (<[output_key := v]> output)
  else mret output.

Definition get_uid (item : value) : M string :=
  uid ← py_get item CONF_UID;
  match uid with
  | VNone => u ← uuid4; mret (str_UUID u)
  | _ => mret (py_str uid)
  end.

Definition process_item (item : value) : M (gmap string value) :=
  let output : gmap string value := ∅ in
  output ← add_attribute_to_output item CONF_TITLE output ATTR_TITLE_TEXT;
  output ← add_attribute_to_output item CONF_TEXT output ATTR_MAIN_TEXT;
  uid ← get_uid item;
  let output := <[ATTR_UID := VStr uid]> output in
  output ← add_attribute_to_output item CONF_AUDIO output ATTR_STREAM_URL;
  output ← add_attribute_to_output item CONF_DISPLAY_URL output
             ATTR_REDIRECTION_URL;
  now ← utcnow;
  mret (<[ATTR_UPDATE_DATE := VStr (strftime now DATE_FORMAT)]> output).

(** The [for] loop of [get]: [briefing] is the list built so far. *)
Fixpoint get_loop (items : list value) (briefing : list (gmap string value))
    : M (list (gmap string value)) :=
  match items with
  | [] => mret briefing
  | item :: items' =>
      output ← process_item item;
      if truthy output
      then get_loop items' (briefing ++ [output])
      else get_loop items' briefing
  end.

Definition get (self : AlexaFlashBriefingView)
    (request : HomeAssistantRequest) (briefing_id : string) : M response :=
  logger DEBUG "Received Alexa flash briefing request for: %s" [briefing_id];;
  valid ← validate_password self request;
  if negb valid then mret (BodyStatus [] UNAUTHORIZED) else
  valid ← is_valid_briefing self briefing_id;
  if negb valid then mret (BodyStatus [] NOT_FOUND) else
  items ← py_iter (default (VList []) (flash_briefings self !! briefing_id));
  briefing ← get_loop items [];
  mret (json briefing).

End FlashBriefings.

(** ** Vocabulary for the statements *)

Section Vocabulary.
Context {K : Const} {B : Builtins}.

(** What a configured field value contributes to the output: nothing
    for [None], the rendered text for a template, the value itself
    otherwise; rendering may raise. *)
Definition field (w : world) (v : value) : result (option value) :=
  match v with
  | VNone => Ok None
  | VTemplate t =>
      match rendering w t with
      | Ok s => Ok (Some (VStr s))
      | Raise e => Raise e
      end
  | _ => Ok (Some v)
  end.

(** Store under [key] when there is something to store. *)
Definition put (key : string) (o : option value) (output : gmap string value)
    : gmap string value :=
  match o with
  | Some v => <[key := v]> output
  | None => output
  end.

(** The fields of an item that [process_item] hands to
    [add_attribute_to_output], with the output key of each. *)
Definition attribute_table : list (string * string) :=
  [ (CONF_TITLE, ATTR_TITLE_TEXT); (CONF_TEXT, ATTR_MAIN_TEXT);
    (CONF_AUDIO, ATTR_STREAM_URL); (CONF_DISPLAY_URL, ATTR_REDIRECTION_URL) ].

(** Every template among the four fields of the item renders. *)
Definition templates_render (w : world) (d : gmap string value) : bool :=
  forallb
    (λ p, match field w (dict_get d p.1) with Ok _ => true | Raise _ => false end)
    attribute_table.

(** An item the transform accepts: a dictionary whose templates render. *)
Definition item_ok (w : world) (item : value) : bool :=
  match item with
  | VDict d => templates_render w d
  | _ => false
  end.

(** The six keys of an output record are pairwise different. *)
Definition output_keys_distinct : Prop :=
  NoDup [ ATTR_TITLE_TEXT; ATTR_MAIN_TEXT; ATTR_UID; ATTR_STREAM_URL;
          ATTR_REDIRECTION_URL; ATTR_UPDATE_DATE ].


(** The UUID that [uuid4] produces in world [w]. *)
Definition next_uuid4 (w : world) : N :=
  UUID_version4 (urandom w (draws w) mod 2 ^ 128)%N.

(** The world after [get_uid] and the identifier it returned. *)
Definition after_uid (w : world) (d : gmap string value) : world :=
  match dict_get d CONF_UID with VNone => draw w | _ => w end.

Definition uid_of (w : world) (d : gmap string value) : string :=
  match dict_get d CONF_UID with
  | VNone => str_UUID (next_uuid4 w)
  | uid => py_str uid
  end.

(** The record [process_item] builds from what the four fields
    contribute, the identifier and the formatted date, in the order in
    which the source stores them. *)
Definition output_record (title text audio display_url : option value)
    (uid date : string) : gmap string value :=
  <[ATTR_UPDATE_DATE := VStr date]>
    (put ATTR_REDIRECTION_URL display_url
       (put ATTR_STREAM_URL audio
          (<[ATTR_UID := VStr uid]>
             (put ATTR_MAIN_TEXT text
                (put ATTR_TITLE_TEXT title ∅))))).

(** The loop of [get] as the specification describes its normal course:
    every item contributes its record, nothing is skipped. *)
Fixpoint get_loop_unconditional (items : list value)
    (briefing : list (gmap string value)) : M (list (gmap string value)) :=
  match items with
  | [] => mret briefing
  | item :: items' =>
      output ← process_item item;
      get_loop_unconditional items' (briefing ++ [output])
  end.

(** [transforms w items outputs w']: running the item transform over
    [items] from left to right, starting in world [w], returns the
    records [outputs], one per item and in the same order, and leaves
    the world [w']. *)
Inductive transforms : world → list value → list (gmap string value)
                       → world → Prop :=
| transforms_nil w : transforms w [] [] w
| transforms_cons w item output w1 items outputs w2 :
    process_item item w = (Ok output, w1) →
    transforms w1 items outputs w2 →
    transforms w (item :: items) (output :: outputs) w2.

(** [transform_error w item e]: [e] is an exception the transform of
    [item] can raise in world [w]: the rendering error of a template
    held by one of the four fields of a dictionary, or, for anything
    that is not a dictionary, the [AttributeError] of the missing [get]
    method. *)
Definition transform_error (w : world) (item : value) (e : exn) : Prop :=
  match item with
  | VDict d =>
      ∃ conf_key output_key t,
        (conf_key, output_key) ∈ attribute_table ∧
        dict_get d conf_key = VTemplate t ∧
        rendering w t = Raise e
  | _ => e = AttributeError "get"
  end.


(** The records [get] writes to the log. *)
Definition received (briefing_id : string) : log_record :=
  {| level := DEBUG;
     msg := "Received Alexa flash briefing request for: %s";
     args := [briefing_id] |}.

Definition no_password : log_record :=
  {| level := ERROR;
     msg := "No password provided for Alexa flash briefing";
     args := [] |}.

Definition wrong_password : log_record :=
  {| level := ERROR;
     msg := "Wrong password for Alexa flash briefing";
     args := [] |}.

Definition no_briefing (briefing_id : string) : log_record :=
  {| level := ERROR;
     msg := "No configured Alexa flash briefing was found for: %s";
     args := [briefing_id] |}.

End Vocabulary.

(** ** A concrete instance *)

(** The values the component imports for its constants: the query
    parameter of the password is called [password], like the
    configuration key, and the date format ends in a plain [Z]. *)
Definition alexa_const : Const := {|
  API_PASSWORD := "password";
  CONF_PASSWORD := "password";
  ATTR_MAIN_TEXT := "mainText";
  ATTR_REDIRECTION_URL := "redirectionURL";
  ATTR_STREAM_URL := "streamUrl";
  ATTR_TITLE_TEXT := "titleText";
  ATTR_UID := "uid";
  ATTR_UPDATE_DATE := "updateDate";
  CONF_AUDIO := "audio";
  CONF_DISPLAY_URL := "display_url";
  CONF_TEXT := "text";
  CONF_TITLE := "title";
  CONF_UID := "uid";
  DATE_FORMAT := "%Y-%m-%dT%H:%M:%SZ" |}.

(** Decimal digits of [z], padded with zeros on the left to [width]. *)
Definition zfill (width : nat) (z : Z) : string :=
  let digits := pretty z in
  string_of_list_ascii (replicate (width - String.length digits) "0"%char)
    ++ digits.

(** A [strftime] for the numeric directives of [DATE_FORMAT]: the year
    as it is, without padding, the other fields on two digits; every
    other character is copied. *)
Fixpoint strftime_numeric (dt : datetime) (format : string) : string :=
  match format with
  | EmptyString => EmptyString
  | String c rest =>
      match c, rest with
      | "%"%char, String directive rest' =>
          match directive with
          | "Y"%char => pretty (year dt) ++ strftime_numeric dt rest'
          | "m"%char => zfill 2 (month dt) ++ strftime_numeric dt rest'
          | "d"%char => zfill 2 (day dt) ++ strftime_numeric dt rest'
          | "H"%char => zfill 2 (hour dt) ++ strftime_numeric dt rest'
          | "M"%char => zfill 2 (minute dt) ++ strftime_numeric dt rest'
          | "S"%char => zfill 2 (second dt) ++ strftime_numeric dt rest'
          | _ => String c (String directive (strftime_numeric dt rest'))
          end
      | _, _ => String c (strftime_numeric dt rest)
      end
  end.

(** The [repr] of a [Template] that has not been rendered yet; the
    [repr] of lists and dictionaries is not needed by the examples and is
    abbreviated. *)
Definition repr_unrendered (v : value) : string :=
  match v with
  | VTemplate t => "Template<template=(" ++ template t ++ ") renders=0>"
  | _ => "..."
  end.

Definition plain_builtins : Builtins := {|
  strftime := strftime_numeric;
  repr_object := repr_unrendered;
  parse_result_native := VStr |}.

(** A world for the examples: the clock advances by a second at each
    reading, the [n]-th entropy draw is [n] scaled, the template
    [{{ 1 / 0 }}] fails to render and every other template renders to its
    own source text. *)
Definition example_world : world := {|
  clock := λ n, {| year := 2026; month := 11; day := 4; hour := 9;
                   minute := 30; second := Z.of_nat n; microsecond := 0 |};
  ticks := 0;
  urandom := λ n, (N.of_nat (S n) * 0x0123456789abcdef0123456789abcdef)%N;
  draws := 0;
  rendering := λ t,
    if String.eqb (template t) "{{ 1 / 0 }}"
    then Raise (TemplateError "ZeroDivisionError: division by zero")
    else Ok (template t);
  log := [] |}.


(** The configuration of the specification's end-to-end example. *)
Definition example_view : AlexaFlashBriefingView := {|
  flash_briefings :=
    <["news" := VList [VDict (<["title" := VStr "Static"]>
                              (<["text" := VStr "Body"]>
                               (<["uid" := VStr "abc-1"]> ∅)))]]>
    (<["password" := VStr "secret"]> ∅) |}.

Definition example_request (password : string) : HomeAssistantRequest :=
  {| query := [("password", password)] |}.

(** The item of [example_view]. *)
Definition static_item : value :=
  VDict (<["title" := VStr "Static"]>
         (<["text" := VStr "Body"]>
          (<["uid" := VStr "abc-1"]> ∅))).

(** An item with a templated title, a number as text and no UID. *)
Definition templated_item : gmap string value :=
  <["title" := VTemplate {| template := "Hello" |}]>
  (<["text" := VInt 42]> ∅).

(** An item whose title is a template that fails to render. *)
Definition failing_item : value :=
  VDict (<["title" := VTemplate {| template := "{{ 1 / 0 }}" |}]> ∅).

(** A briefing whose only item fails to render. *)
Definition failing_view : AlexaFlashBriefingView := {|
  flash_briefings :=
    <["news" := VList [failing_item]]>
    (<["password" := VStr "secret"]> ∅) |}.

(** A briefing whose first item renders and whose second does not. *)
Definition half_failing_view : AlexaFlashBriefingView := {|
  flash_briefings :=
    <["news" := VList [VDict templated_item; failing_item]]>
    (<["password" := VStr "secret"]> ∅) |}.

(** A briefing with an item that has a UID and one that has none. *)
Definition mixed_view : AlexaFlashBriefingView := {|
  flash_briefings :=
    <["news" := VList [static_item; VDict templated_item]]>
    (<["empty" := VList []]>
     (<["password" := VStr "secret"]> ∅)) |}.



(** A briefing whose first element is a string instead of an item. *)
Definition malformed_view : AlexaFlashBriefingView := {|
  flash_briefings :=
    <["news" := VList [VStr "Static"; static_item]]>
    (<["password" := VStr "secret"]> ∅) |}.

(** An item whose UID is a template that would fail to render. *)
Definition template_uid_item : gmap string value :=
  <["uid" := VTemplate {| template := "{{ 1 / 0 }}" |}]>
  (<["title" := VStr "Static"]> ∅).

(** ** Vocabulary for the further properties *)

Section Accounting.
Context {K : Const}.

(** An item for which [get_uid] has to generate an identifier. *)
Definition lacks_uid (item : value) : bool :=
  match item with
  | VDict d => negb (is_not_None (dict_get d CONF_UID))
  | _ => false
  end.

(** The configuration keys [process_item] reads. *)
Definition item_keys : list string :=
  [CONF_TITLE; CONF_TEXT; CONF_UID; CONF_AUDIO; CONF_DISPLAY_URL].

(** The keys [process_item] can store a value under. *)
Definition output_keys : list string :=
  [ ATTR_TITLE_TEXT; ATTR_MAIN_TEXT; ATTR_UID; ATTR_STREAM_URL;
    ATTR_REDIRECTION_URL; ATTR_UPDATE_DATE ].

End Accounting.

(** * Properties *)

(** ** The comparison primitive *)

Lemma to_N_inj (x y : byte) : Byte.to_N x = Byte.to_N y → x = y.
Proof.
  intros E. assert (H : Byte.of_N (Byte.to_N x) = Byte.of_N (Byte.to_N y))
    by (by rewrite E).
  rewrite !Byte.of_to_N in H. congruence.
Qed.

Lemma tscmp_nonzero (l r : list byte) (acc : N) :
  acc ≠ 0%N → tscmp l r acc ≠ 0%N.
Proof.
  revert r acc. induction l as [|x l IH]; intros [|y r] acc Hacc; simpl; auto.
  apply IH. intros H. apply N.lor_eq_0_l in H. done.
Qed.

Lemma tscmp_zero (l r : list byte) (acc : N) :
  length l = length r →
  tscmp l r acc = 0%N ↔ acc = 0%N ∧ l = r.
Proof.
  revert r acc. induction l as [|x l IH]; intros [|y r] acc Hlen;
    simpl in *; try discriminate.
  - split; [by intros ->|by intros [-> _]].
  - rewrite IH by lia. rewrite N.lor_eq_0_iff, N.lxor_eq_0_iff. split.
    + intros [[-> E] ->]. apply to_N_inj in E. by subst.
    + intros [-> [= -> ->]]. done.
Qed.

Lemma compare_digest_true (a b : list byte) :
  compare_digest a b = true ↔ a = b.
Proof.
  unfold compare_digest. destruct (Nat.eqb_spec (length a) (length b)) as [E|E].
  - rewrite N.eqb_eq, tscmp_zero by done. split; [by intros [_ ->]|done].
  - split; [|by intros ->].
    rewrite N.eqb_eq. intros H. by apply tscmp_nonzero in H.
Qed.

Lemma encode_utf8_inj (s t : string) : encode_utf8 s = encode_utf8 t → s = t.
Proof.
  unfold encode_utf8. intros E.
  rewrite <- (string_of_list_byte_of_string s), E.
  apply string_of_list_byte_of_string.
Qed.

Lemma compare_digest_encode (s t : string) :
  compare_digest (encode_utf8 s) (encode_utf8 t) = bool_decide (s = t).
Proof.
  case_bool_decide as E.
  - subst. by apply compare_digest_true.
  - destruct (compare_digest _ _) eqn:C; [|done].
    apply compare_digest_true, encode_utf8_inj in C. done.
Qed.

(** ** UUIDs *)






Lemma length_hex (n : nat) (x : N) : length (hex n x) = n.
Proof.
  revert x. induction n as [|n IH]; intros x; simpl; [done|].
  rewrite length_app, IH. simpl. lia.
Qed.




(** ** The item transform *)

Section Transform.
Context {K : Const} {B : Builtins}.

Ltac run := unfold mbind, M_bind, mret, M_ret, raise in *; simpl in *.

Lemma add_attribute_dict d conf_key output output_key w :
  add_attribute_to_output (VDict d) conf_key output output_key w =
  (match field w (dict_get d conf_key) with
   | Ok o => Ok (put output_key o output)
   | Raise e => Raise e
   end, w).
Proof.
  unfold add_attribute_to_output, py_async_render, async_render, render_text,
    field.
  run. unfold dict_get.
  destruct (d !! conf_key) as [[| | | |t| |]|] eqn:E; simpl; rewrite ?E;
    try done.
  by destruct (rendering w t).
Qed.

Lemma add_attribute_not_dict item conf_key output output_key w :
  (∀ d, item ≠ VDict d) →
  add_attribute_to_output item conf_key output output_key w
  = (Raise (AttributeError "get"), w).
Proof. intros H. destruct item; try done. by destruct (H d). Qed.

Lemma get_uid_dict d w :
  get_uid (VDict d) w =
  match dict_get d CONF_UID with
  | VNone => (Ok (str_UUID (next_uuid4 w)), draw w)
  | uid => (Ok (py_str uid), w)
  end.
Proof. unfold get_uid. run. by destruct (dict_get d CONF_UID). Qed.

Lemma get_uid_dict' d w :
  get_uid (VDict d) w = (Ok (uid_of w d), after_uid w d).
Proof.
  rewrite get_uid_dict. unfold uid_of, after_uid.
  by destruct (dict_get d CONF_UID).
Qed.

Lemma field_after_uid w d v : field (after_uid w d) v = field w v.
Proof. unfold after_uid. by destruct (dict_get d CONF_UID). Qed.

Lemma process_item_dict d w :
  process_item (VDict d) w =
  match field w (dict_get d CONF_TITLE) with
  | Raise e => (Raise e, w)
  | Ok title =>
  match field w (dict_get d CONF_TEXT) with
  | Raise e => (Raise e, w)
  | Ok text =>
  match field w (dict_get d CONF_AUDIO) with
  | Raise e => (Raise e, after_uid w d)
  | Ok audio =>
  match field w (dict_get d CONF_DISPLAY_URL) with
  | Raise e => (Raise e, after_uid w d)
  | Ok display_url =>
    (Ok (output_record title text audio display_url (uid_of w d)
           (strftime (clock w (ticks w)) DATE_FORMAT)),
     tick (after_uid w d))
  end end end end.
Proof.
  unfold process_item, output_record.
  unfold mbind at 1, M_bind at 1. rewrite add_attribute_dict.
  destruct (field w (dict_get d CONF_TITLE)) as [title|e]; [|done].
  unfold mbind at 1, M_bind at 1. rewrite add_attribute_dict.
  destruct (field w (dict_get d CONF_TEXT)) as [text|e]; [|done].
  unfold mbind at 1, M_bind at 1. rewrite get_uid_dict'.
  unfold mbind at 1, M_bind at 1. rewrite add_attribute_dict, field_after_uid.
  destruct (field w (dict_get d CONF_AUDIO)) as [audio|e]; [|done].
  unfold mbind at 1, M_bind at 1. rewrite add_attribute_dict, field_after_uid.
  destruct (field w (dict_get d CONF_DISPLAY_URL)) as [display_url|e]; [|done].
  unfold after_uid. by destruct (dict_get d CONF_UID).
Qed.

Lemma process_item_not_dict item w :
  (∀ d, item ≠ VDict d) →
  process_item item w = (Raise (AttributeError "get"), w).
Proof.
  intros H. unfold process_item.
  unfold mbind at 1, M_bind at 1. by rewrite add_attribute_not_dict.
Qed.

Lemma templates_render_true w d :
  templates_render w d = true ↔
  ∃ title text audio display_url,
    field w (dict_get d CONF_TITLE) = Ok title ∧
    field w (dict_get d CONF_TEXT) = Ok text ∧
    field w (dict_get d CONF_AUDIO) = Ok audio ∧
    field w (dict_get d CONF_DISPLAY_URL) = Ok display_url.
Proof.
  unfold templates_render, attribute_table. simpl.
  destruct (field w (dict_get d CONF_TITLE)) as [title|],
    (field w (dict_get d CONF_TEXT)) as [text|],
    (field w (dict_get d CONF_AUDIO)) as [audio|],
    (field w (dict_get d CONF_DISPLAY_URL)) as [display_url|]; simpl;
    try (split; [done|by intros (?&?&?&?&?&?&?&?)]).
  split; [|done]. intros _. exists title, text, audio, display_url. auto.
Qed.

(** [process_item] returns exactly on the items [item_ok] accepts, and
    then with this record and this world. *)
Lemma process_item_Ok item w output w' :
  process_item item w = (Ok output, w') ↔
  ∃ d title text audio display_url,
    item = VDict d ∧
    field w (dict_get d CONF_TITLE) = Ok title ∧
    field w (dict_get d CONF_TEXT) = Ok text ∧
    field w (dict_get d CONF_AUDIO) = Ok audio ∧
    field w (dict_get d CONF_DISPLAY_URL) = Ok display_url ∧
    output = output_record title text audio display_url (uid_of w d)
               (strftime (clock w (ticks w)) DATE_FORMAT) ∧
    w' = tick (after_uid w d).
Proof.
  split.
  - destruct item as [| | | | | |d];
      try (rewrite process_item_not_dict by done; done).
    rewrite process_item_dict.
    destruct (field w (dict_get d CONF_TITLE)) as [title|] eqn:E1; [|done].
    destruct (field w (dict_get d CONF_TEXT)) as [text|] eqn:E2; [|done].
    destruct (field w (dict_get d CONF_AUDIO)) as [audio|] eqn:E3; [|done].
    destruct (field w (dict_get d CONF_DISPLAY_URL)) as [display_url|] eqn:E4;
      [|done].
    intros [= <- <-]. exists d, title, text, audio, display_url.
    repeat split; done.
  - intros (d & title & text & audio & display_url
            & -> & E1 & E2 & E3 & E4 & -> & ->).
    by rewrite process_item_dict, E1, E2, E3, E4.
Qed.

Lemma process_item_item_ok item w :
  item_ok w item = true ↔ ∃ output w', process_item item w = (Ok output, w').
Proof.
  split.
  - destruct item as [| | | | | |d]; try done. simpl.
    intros (title & text & audio & display_url & E1 & E2 & E3 & E4)
      %templates_render_true.
    eexists _, _. apply process_item_Ok.
    exists d, title, text, audio, display_url. repeat split; done.
  - intros (output & w' & (d & title & text & audio & display_url
            & -> & E1 & E2 & E3 & E4 & _)%process_item_Ok).
    simpl. apply templates_render_true. eauto 10.
Qed.

Lemma process_item_Raise item w e w' :
  process_item item w = (Raise e, w') → item_ok w item = false.
Proof.
  intros H. destruct (item_ok w item) eqn:E; [|done].
  apply process_item_item_ok in E as (output & w'' & E). congruence.
Qed.

(** *** Lookups in the record *)

Lemma lookup_put_eq key o (m : gmap string value) :
  put key o m !! key = match o with Some v => Some v | None => m !! key end.
Proof. destruct o; simpl; [apply lookup_insert_eq|done]. Qed.

Lemma lookup_put_ne key key' o (m : gmap string value) :
  key ≠ key' → put key o m !! key' = m !! key'.
Proof. intros H. destruct o; simpl; [by apply lookup_insert_ne|done]. Qed.

Lemma put_is_Some key key' o (m : gmap string value) :
  is_Some (m !! key') → is_Some (put key o m !! key').
Proof.
  intros H. destruct o; simpl; [|done].
  rewrite lookup_insert. by case_decide.
Qed.

Lemma keys_distinct :
  output_keys_distinct →
  (ATTR_TITLE_TEXT ≠ ATTR_MAIN_TEXT ∧ ATTR_TITLE_TEXT ≠ ATTR_UID ∧
   ATTR_TITLE_TEXT ≠ ATTR_STREAM_URL ∧ ATTR_TITLE_TEXT ≠ ATTR_REDIRECTION_URL ∧
   ATTR_TITLE_TEXT ≠ ATTR_UPDATE_DATE) ∧
  (ATTR_MAIN_TEXT ≠ ATTR_UID ∧ ATTR_MAIN_TEXT ≠ ATTR_STREAM_URL ∧
   ATTR_MAIN_TEXT ≠ ATTR_REDIRECTION_URL ∧ ATTR_MAIN_TEXT ≠ ATTR_UPDATE_DATE) ∧
  (ATTR_UID ≠ ATTR_STREAM_URL ∧ ATTR_UID ≠ ATTR_REDIRECTION_URL ∧
   ATTR_UID ≠ ATTR_UPDATE_DATE) ∧
  (ATTR_STREAM_URL ≠ ATTR_REDIRECTION_URL ∧
   ATTR_STREAM_URL ≠ ATTR_UPDATE_DATE) ∧
  ATTR_REDIRECTION_URL ≠ ATTR_UPDATE_DATE.
Proof.
  unfold output_keys_distinct.
  rewrite !NoDup_cons, !not_elem_of_cons. tauto.
Qed.

Section Record.
Variables (title text audio display_url : option value) (uid date : string).
Let record := output_record title text audio display_url uid date.

Lemma lookup_record_date : record !! ATTR_UPDATE_DATE = Some (VStr date).
Proof. apply lookup_insert_eq. Qed.

Lemma record_has_uid : is_Some (record !! ATTR_UID).
Proof.
  unfold record, output_record. rewrite lookup_insert. case_decide; [done|].
  do 2 apply put_is_Some. by rewrite lookup_insert_eq.
Qed.

Lemma record_truthy : truthy record = true.
Proof.
  unfold truthy. rewrite bool_decide_eq_false_2; [done|].
  apply insert_non_empty.
Qed.

Hypothesis distinct : output_keys_distinct.

Lemma lookup_record_uid : record !! ATTR_UID = Some (VStr uid).
Proof.
  destruct (keys_distinct distinct)
    as ((?&?&?&?&?)&(?&?&?&?)&(?&?&?)&(?&?)&?).
  unfold record, output_record.
  rewrite lookup_insert_ne, !lookup_put_ne by done.
  apply lookup_insert_eq.
Qed.

Lemma lookup_record_title : record !! ATTR_TITLE_TEXT = title.
Proof.
  destruct (keys_distinct distinct)
    as ((?&?&?&?&?)&(?&?&?&?)&(?&?&?)&(?&?)&?).
  unfold record, output_record.
  rewrite lookup_insert_ne, !lookup_put_ne, lookup_insert_ne,
    lookup_put_ne, lookup_put_eq by done.
  by destruct title.
Qed.

Lemma lookup_record_text : record !! ATTR_MAIN_TEXT = text.
Proof.
  destruct (keys_distinct distinct)
    as ((?&?&?&?&?)&(?&?&?&?)&(?&?&?)&(?&?)&?).
  unfold record, output_record.
  rewrite lookup_insert_ne, !lookup_put_ne, lookup_insert_ne,
    lookup_put_eq, lookup_put_ne by done.
  by destruct text.
Qed.

Lemma lookup_record_audio : record !! ATTR_STREAM_URL = audio.
Proof.
  destruct (keys_distinct distinct)
    as ((?&?&?&?&?)&(?&?&?&?)&(?&?&?)&(?&?)&?).
  unfold record, output_record.
  rewrite lookup_insert_ne, lookup_put_ne, lookup_put_eq, lookup_insert_ne,
    !lookup_put_ne by done.
  by destruct audio.
Qed.

Lemma lookup_record_display_url : record !! ATTR_REDIRECTION_URL = display_url.
Proof.
  destruct (keys_distinct distinct)
    as ((?&?&?&?&?)&(?&?&?&?)&(?&?&?)&(?&?)&?).
  unfold record, output_record.
  rewrite lookup_insert_ne, lookup_put_eq, lookup_put_ne, lookup_insert_ne,
    !lookup_put_ne by done.
  by destruct display_url.
Qed.

End Record.

Lemma field_cases w v o :
  field w v = Ok o →
  match v with
  | VNone => o = None
  | VTemplate t => ∃ s, rendering w t = Ok s ∧ o = Some (VStr s)
  | _ => o = Some v
  end.
Proof.
  destruct v as [| | | |t| |]; simpl; try by intros [= <-].
  destruct (rendering w t) as [s|]; [|done]. intros [= <-]. eauto.
Qed.

End Transform.

(** ** Randomness of generated identifiers *)





Lemma length_string_of_list_ascii (l : list ascii) :
  String.length (string_of_list_ascii l) = length l.
Proof. induction l as [|c l IH]; simpl; congruence. Qed.

Lemma hex_lookup (n : nat) (x : N) (i : nat) :
  i < n →
  hex n x !! i
  = Some (hexdigit ((x / 16 ^ N.of_nat (n - 1 - i)) mod 16)%N).
Proof.
  revert x i. induction n as [|n IH]; intros x i Hi; [lia|].
  cbn [hex]. destruct (decide (i = n)) as [->|Hne].
  - rewrite lookup_app_r by (rewrite length_hex; lia).
    rewrite length_hex, Nat.sub_diag.
    replace (S n - 1 - n) with 0 by lia.
    by rewrite N.pow_0_r, N.div_1_r.
  - rewrite lookup_app_l by (rewrite length_hex; lia).
    rewrite IH by lia. rewrite N.Div0.div_div.
    replace (S n - 1 - i) with (S (n - 1 - i)) by lia.
    by rewrite Nat2N.inj_succ, N.pow_succ_r'.
Qed.

Lemma UUID_version4_version (int : N) :
  ((UUID_version4 int / 2 ^ 76) mod 2 ^ 4 = 4)%N.
Proof.
  apply N.bits_inj. intros n. destruct (N.lt_ge_cases n 4) as [Hn|Hn].
  - rewrite N.mod_pow2_bits_low, N.div_pow2_bits by done.
    unfold UUID_version4.
    rewrite N.lor_spec, N.ldiff_spec, N.lor_spec, N.ldiff_spec.
    assert (Hc : n = 0%N ∨ n = 1%N ∨ n = 2%N ∨ n = 3%N) by lia.
    destruct Hc as [Hc|[Hc|[Hc|Hc]]]; subst n;
      match goal with
      | |- context [N.testbit int ?k] => destruct (N.testbit int k)
      end; by vm_compute.
  - rewrite N.mod_pow2_bits_high by done. symmetry.
    apply N.bits_above_log2. change (N.log2 4) with 2%N. lia.
Qed.

Lemma hyphens_lookup (h : list ascii) :
  length h = 32 →
  let l := (take 8 h ++ ["-"%char] ++ take 4 (drop 8 h) ++ ["-"%char]
            ++ take 4 (drop 12 h) ++ ["-"%char] ++ take 4 (drop 16 h)
            ++ ["-"%char] ++ drop 20 h)%list in
  length l = 36 ∧
  l !! 8 = Some "-"%char ∧ l !! 13 = Some "-"%char ∧
  l !! 18 = Some "-"%char ∧ l !! 23 = Some "-"%char ∧
  l !! 14 = h !! 12.
Proof.
  intros L. do 32 (destruct h as [|? h]; [discriminate L|]).
  destruct h; [|discriminate L]. by cbv.
Qed.


(** ** Claims about the item transform *)

Section TransformClaims.
Context {K : Const} {B : Builtins}.

(** C5. [process_item] maps each of the four optional fields (title,
    text, audio URL, display URL) as follows.  A field that is absent,
    which is what [item.get] reports as [None], leaves its output key
    out of the record; a field holding a template puts the text the
    template renders to at request time, as a string and not parsed into
    another value, under its output key; any other configured value is
    stored unchanged, whatever its type.  This holds for every item
    whose templates render, and then [process_item] does return a
    record. *)
Theorem process_item_fields (d : gmap string value) (w : world)
    (conf_key output_key : string) :
  output_keys_distinct →
  (conf_key, output_key) ∈ attribute_table →
  templates_render w d = true →
  ∃ output w',
    process_item (VDict d) w = (Ok output, w') ∧
    match dict_get d conf_key with
    | VNone => output !! output_key = None
    | VTemplate t =>
        ∃ s, rendering w t = Ok s ∧ output !! output_key = Some (VStr s)
    | v => output !! output_key = Some v
    end.
Proof.
  intros distinct Hin
    (title & text & audio & display_url & E1 & E2 & E3 & E4)
    %templates_render_true.
  eexists _, _. split.
  { apply process_item_Ok. exists d, title, text, audio, display_url.
    repeat split; done. }
  unfold attribute_table in Hin.
  repeat (apply elem_of_cons in Hin as [[= -> ->]|Hin]);
    [| | | |by apply elem_of_nil in Hin].
  - rewrite lookup_record_title by done. apply field_cases in E1.
    destruct (dict_get d CONF_TITLE); naive_solver.
  - rewrite lookup_record_text by done. apply field_cases in E2.
    destruct (dict_get d CONF_TEXT); naive_solver.
  - rewrite lookup_record_audio by done. apply field_cases in E3.
    destruct (dict_get d CONF_AUDIO); naive_solver.
  - rewrite lookup_record_display_url by done. apply field_cases in E4.
    destruct (dict_get d CONF_DISPLAY_URL); naive_solver.
Qed.


(** C7. For every item, whatever it contains, the record that
    [process_item] returns has under the update-date key the reading of
    the UTC clock taken in that invocation, formatted with
    [DATE_FORMAT]; the clock is read once per invocation, and
    [process_item] fails to return only on an item that is not a
    dictionary or has a template that does not render. *)
Theorem process_item_update_date (item : value) (w : world) :
  match process_item item w with
  | (Ok output, w') =>
      output !! ATTR_UPDATE_DATE
      = Some (VStr (strftime (clock w (ticks w)) DATE_FORMAT)) ∧
      ticks w' = S (ticks w)
  | (Raise _, _) => item_ok w item = false
  end.
Proof.
  destruct (process_item item w) as [[output|e] w'] eqn:E.
  - apply process_item_Ok in E
      as (d & title & text & audio & display_url & -> & _ & _ & _ & _ & -> & ->).
    split; [apply lookup_record_date|].
    unfold after_uid. by destruct (dict_get d CONF_UID).
  - by apply process_item_Raise in E.
Qed.

Lemma dict_get_insert_None (d : gmap string value) (key k : string) :
  dict_get (<[key := VNone]> d) k = dict_get (delete key d) k.
Proof.
  unfold dict_get. rewrite lookup_insert, lookup_delete.
  by case_decide.
Qed.

Lemma process_item_ext (d1 d2 : gmap string value) (w : world) :
  (∀ k, dict_get d1 k = dict_get d2 k) →
  process_item (VDict d1) w = process_item (VDict d2) w.
Proof.
  intros H. rewrite !process_item_dict. unfold uid_of, after_uid.
  by rewrite !H.
Qed.

(** C10. A field set to [None] behaves as an absent field, for every
    item: the transform of an item with [key] set to [None] is the
    transform of the item without [key]; [add_attribute_to_output]
    leaves the output untouched for a field set to [None], so for title,
    text, audio URL and display URL the output key is missing from the
    record; and [get_uid] on a [uid] set to [None] draws a fresh
    version-4 UUID. *)
Theorem none_as_absent (d : gmap string value) (w : world) :
  (∀ key,
     process_item (VDict (<[key := VNone]> d)) w
     = process_item (VDict (delete key d)) w) ∧
  (∀ conf_key output output_key,
     add_attribute_to_output (VDict (<[conf_key := VNone]> d)) conf_key
       output output_key w
     = (Ok output, w)) ∧
  (∀ conf_key output_key output w',
     output_keys_distinct →
     (conf_key, output_key) ∈ attribute_table →
     process_item (VDict (<[conf_key := VNone]> d)) w = (Ok output, w') →
     output !! output_key = None) ∧
  get_uid (VDict (<[CONF_UID := VNone]> d)) w
  = (Ok (str_UUID (next_uuid4 w)), draw w).
Proof.
  split; [|split; [|split]].
  - intros key. apply process_item_ext. intros k.
    apply dict_get_insert_None.
  - intros conf_key output output_key. rewrite add_attribute_dict.
    unfold dict_get. by rewrite lookup_insert_eq.
  - intros conf_key output_key output w' distinct Hin
      (d' & title & text & audio & display_url
       & [= <-] & E1 & E2 & E3 & E4 & -> & _)%process_item_Ok.
    unfold attribute_table in Hin.
    repeat (apply elem_of_cons in Hin as [[= -> ->]|Hin]);
      [| | | |by apply elem_of_nil in Hin].
    + rewrite lookup_record_title by done.
      unfold dict_get in E1. rewrite lookup_insert_eq in E1. by injection E1.
    + rewrite lookup_record_text by done.
      unfold dict_get in E2. rewrite lookup_insert_eq in E2. by injection E2.
    + rewrite lookup_record_audio by done.
      unfold dict_get in E3. rewrite lookup_insert_eq in E3. by injection E3.
    + rewrite lookup_record_display_url by done.
      unfold dict_get in E4. rewrite lookup_insert_eq in E4. by injection E4.
  - rewrite get_uid_dict. unfold dict_get. by rewrite lookup_insert_eq.
Qed.

End TransformClaims.

(** ** The request handler *)

Section Handler.
Context {K : Const} {B : Builtins}.

Lemma validate_password_eq self request w :
  validate_password self request w =
  match query_get (query request) API_PASSWORD with
  | None => (Ok false, emit no_password w)
  | Some given =>
      match flash_briefings self !! CONF_PASSWORD with
      | None => (Raise (KeyError CONF_PASSWORD), w)
      | Some (VStr configured) =>
          if bool_decide (given = configured)
          then (Ok true, w)
          else (Ok false, emit wrong_password w)
      | Some _ => (Raise (AttributeError "encode"), w)
      end
  end.
Proof.
  unfold validate_password, query_getitem, py_getitem, py_encode.
  destruct (query_get (query request) API_PASSWORD) as [given|]; [|done].
  unfold mbind, M_bind, mret, M_ret, raise.
  destruct (flash_briefings self !! CONF_PASSWORD)
    as [[| | |configured| | |]|]; try done.
  rewrite compare_digest_encode. by case_bool_decide.
Qed.

(** Whether validation passes does not depend on the world. *)
Lemma validate_password_world self request w w0 :
  (validate_password self request w).1 = (validate_password self request w0).1.
Proof.
  rewrite !validate_password_eq.
  destruct (query_get (query request) API_PASSWORD) as [given|]; [|done].
  destruct (flash_briefings self !! CONF_PASSWORD)
    as [[| | |configured| | |]|]; try done.
  by case_bool_decide.
Qed.

Lemma validate_password_true self request w :
  (validate_password self request w).1 = Ok true ↔
  ∃ password,
    query_get (query request) API_PASSWORD = Some password ∧
    flash_briefings self !! CONF_PASSWORD = Some (VStr password).
Proof.
  rewrite validate_password_eq.
  destruct (query_get (query request) API_PASSWORD) as [given|];
    [|split; [done|by intros (?&?&?)]].
  destruct (flash_briefings self !! CONF_PASSWORD)
    as [[| | |configured| | |]|];
    try (split; [done|by intros (?&?&?)]).
  case_bool_decide as E; simpl.
  - subst. split; [eauto|done].
  - split; [done|]. intros (? & [= <-] & [= <-]). done.
Qed.

Lemma validate_password_pass self request w :
  (validate_password self request w).1 = Ok true →
  validate_password self request w = (Ok true, w).
Proof.
  intros (password & E1 & E2)%validate_password_true.
  rewrite validate_password_eq, E1, E2. by rewrite bool_decide_eq_true_2.
Qed.

Lemma is_valid_briefing_eq self briefing_id w :
  is_valid_briefing self briefing_id w =
  match flash_briefings self !! briefing_id with
  | Some (VList _) => (Ok true, w)
  | _ => (Ok false, emit (no_briefing briefing_id) w)
  end.
Proof.
  unfold is_valid_briefing, dict_get.
  by destruct (flash_briefings self !! briefing_id) as [[]|].
Qed.

(** The truth test of the loop never fails. *)
Lemma process_item_truthy item w output w' :
  process_item item w = (Ok output, w') → truthy output = true.
Proof.
  intros (d & title & text & audio & display_url
          & _ & _ & _ & _ & _ & -> & _)%process_item_Ok.
  apply record_truthy.
Qed.

Lemma get_loop_unconditional_eq items briefing w :
  get_loop items briefing w = get_loop_unconditional items briefing w.
Proof.
  revert briefing w. induction items as [|item items IH]; intros briefing w;
    simpl; [done|].
  unfold mbind, M_bind.
  destruct (process_item item w) as [[output|e] w'] eqn:E; [|done].
  by rewrite (process_item_truthy _ _ _ _ E), IH.
Qed.

Lemma transforms_nil_inv w outputs w' :
  transforms w [] outputs w' → outputs = [] ∧ w' = w.
Proof. by inversion 1. Qed.

Lemma transforms_cons_inv w item items new w' :
  transforms w (item :: items) new w' →
  ∃ output w1 outputs,
    new = output :: outputs ∧
    process_item item w = (Ok output, w1) ∧
    transforms w1 items outputs w'.
Proof. inversion 1; subst. eauto 10. Qed.

Lemma get_loop_Ok items briefing w outputs w' :
  get_loop items briefing w = (Ok outputs, w') ↔
  ∃ new, outputs = (briefing ++ new)%list ∧ transforms w items new w'.
Proof.
  rewrite get_loop_unconditional_eq.
  revert briefing w outputs. induction items as [|item items IH];
    intros briefing w outputs; simpl.
  - unfold mret, M_ret. split.
    + intros [= <- <-]. exists []. split; [by rewrite app_nil_r|constructor].
    + intros (new & -> & [-> ->]%transforms_nil_inv). by rewrite app_nil_r.
  - unfold mbind, M_bind.
    destruct (process_item item w) as [[output|e] w1] eqn:E.
    + rewrite IH. split.
      * intros (new & -> & H). exists (output :: new).
        split; [by rewrite <- app_assoc|by econstructor].
      * intros (new & -> & (output' & w1' & outputs' & -> & E' & H)
                %transforms_cons_inv).
        rewrite E in E'. injection E' as <- <-.
        exists outputs'. split; [by rewrite <- app_assoc|done].
    + split; [done|].
      intros (new & -> & (output' & w1' & outputs' & -> & E' & H)
              %transforms_cons_inv).
      congruence.
Qed.

Lemma transforms_length w items outputs w' :
  transforms w items outputs w' → length outputs = length items.
Proof. induction 1; simpl; congruence. Qed.

Lemma transforms_keys w items outputs w' :
  transforms w items outputs w' →
  Forall (λ output, is_Some (output !! ATTR_UID)
                    ∧ is_Some (output !! ATTR_UPDATE_DATE)) outputs.
Proof.
  induction 1 as [|w item output w1 items outputs w2 E _ IH]; constructor;
    [|done].
  apply process_item_Ok in E
    as (d & title & text & audio & display_url & _ & _ & _ & _ & _ & -> & _).
  split; [apply record_has_uid|].
  rewrite lookup_record_date. done.
Qed.

Lemma transforms_rendering w items outputs w' :
  transforms w items outputs w' → rendering w' = rendering w.
Proof.
  induction 1 as [|w item output w1 items outputs w2 E _ IH]; [done|].
  apply process_item_Ok in E
    as (d & title & text & audio & display_url & _ & _ & _ & _ & _ & _ & ->).
  rewrite IH. unfold after_uid. by destruct (dict_get d CONF_UID).
Qed.

Lemma item_ok_rendering w w' item :
  rendering w' = rendering w → item_ok w' item = item_ok w item.
Proof.
  intros H. destruct item; try done. simpl.
  unfold templates_render, field. by rewrite H.
Qed.

(** The loop runs to its end when every item is accepted. *)
Lemma transforms_total w items :
  Forall (λ item, item_ok w item = true) items →
  ∃ outputs w', transforms w items outputs w'.
Proof.
  revert w. induction items as [|item items IH]; intros w H.
  - exists [], w. constructor.
  - apply Forall_cons in H as [H1 H2].
    apply process_item_item_ok in H1 as (output & w1 & E).
    destruct (IH w1) as (outputs & w2 & Ht).
    { eapply Forall_impl; [done|]. intros item' Hi. simpl in Hi.
      rewrite <- Hi. apply item_ok_rendering.
      apply (transforms_rendering w [item] [output] w1).
      econstructor; [done|constructor]. }
    exists (output :: outputs), w2. by econstructor.
Qed.

(** The loop stops with an exception only at an item that is not
    accepted. *)
Lemma process_item_rendering item w output w' :
  process_item item w = (Ok output, w') → rendering w' = rendering w.
Proof.
  intros (d & title & text & audio & display_url
          & _ & _ & _ & _ & _ & _ & ->)%process_item_Ok.
  unfold after_uid. by destruct (dict_get d CONF_UID).
Qed.

Lemma get_loop_Raise items briefing w e w' :
  get_loop items briefing w = (Raise e, w') →
  Exists (λ item, item_ok w item = false) items.
Proof.
  rewrite get_loop_unconditional_eq.
  revert briefing w. induction items as [|item items IH]; intros briefing w;
    simpl; [done|].
  unfold mbind, M_bind.
  destruct (process_item item w) as [[output|e1] w1] eqn:E.
  - intros H%IH. apply Exists_cons_tl.
    eapply Exists_impl; [exact H|]. intros item' Hi. simpl in Hi.
    rewrite <- Hi. symmetry. apply item_ok_rendering.
    by eapply process_item_rendering.
  - intros _. apply Exists_cons_hd. by eapply process_item_Raise.
Qed.

Lemma get_eq self request briefing_id w :
  get self request briefing_id w =
  let w0 := emit (received briefing_id) w in
  match query_get (query request) API_PASSWORD with
  | None => (Ok (BodyStatus [] UNAUTHORIZED), emit no_password w0)
  | Some given =>
      match flash_briefings self !! CONF_PASSWORD with
      | None => (Raise (KeyError CONF_PASSWORD), w0)
      | Some (VStr configured) =>
          if bool_decide (given = configured) then
            match flash_briefings self !! briefing_id with
            | Some (VList items) =>
                match get_loop items [] w0 with
                | (Ok briefing, w') => (Ok (JsonResponse briefing OK), w')
                | (Raise e, w') => (Raise e, w')
                end
            | _ => (Ok (BodyStatus [] NOT_FOUND),
                    emit (no_briefing briefing_id) w0)
            end
          else (Ok (BodyStatus [] UNAUTHORIZED), emit wrong_password w0)
      | Some _ => (Raise (AttributeError "encode"), w0)
      end
  end.
Proof.
  unfold get. unfold mbind at 1, M_bind at 1, logger at 1.
  change {| level := DEBUG;
            msg := "Received Alexa flash briefing request for: %s";
            args := [briefing_id] |} with (received briefing_id).
  cbv zeta. set (w0 := emit (received briefing_id) w).
  unfold mbind at 1, M_bind at 1. rewrite validate_password_eq.
  destruct (query_get (query request) API_PASSWORD) as [given|]; [|done].
  destruct (flash_briefings self !! CONF_PASSWORD)
    as [[| | |configured| | |]|]; try done.
  case_bool_decide; [|done]. simpl.
  unfold mbind at 1, M_bind at 1. rewrite is_valid_briefing_eq.
  by destruct (flash_briefings self !! briefing_id) as [[| | | | |items|]|].
Qed.


Lemma get_loop_first_error good bad rest briefing w outputs w1 e w2 :
  transforms w good outputs w1 →
  process_item bad w1 = (Raise e, w2) →
  get_loop (good ++ bad :: rest) briefing w = (Raise e, w2).
Proof.
  intros Ht Hbad. rewrite get_loop_unconditional_eq. revert briefing.
  induction Ht as [|w item output w1 items outputs w3 E _ IH];
    intros briefing; simpl; unfold mbind, M_bind.
  - by rewrite Hbad.
  - rewrite E. by apply IH.
Qed.


Lemma field_Raise w v e :
  field w v = Raise e → ∃ t, v = VTemplate t ∧ rendering w t = Raise e.
Proof.
  destruct v as [| | | |t| |]; simpl; try done.
  destruct (rendering w t) as [s|e'] eqn:E; [done|].
  intros [= <-]. eauto.
Qed.

(** What [process_item] raises. *)
Lemma process_item_Raise_error item w e w' :
  process_item item w = (Raise e, w') → transform_error w item e.
Proof.
  destruct item as [| | | | | |d];
    try (rewrite process_item_not_dict by done; by intros [= <- <-]).
  rewrite process_item_dict. unfold transform_error, attribute_table.
  destruct (field w (dict_get d CONF_TITLE)) as [title|e1] eqn:E1.
  2:{ intros [= <- <-]. apply field_Raise in E1 as (t & E & Hr).
      exists CONF_TITLE, ATTR_TITLE_TEXT, t. split; [set_solver|done]. }
  destruct (field w (dict_get d CONF_TEXT)) as [text|e2] eqn:E2.
  2:{ intros [= <- <-]. apply field_Raise in E2 as (t & E & Hr).
      exists CONF_TEXT, ATTR_MAIN_TEXT, t. split; [set_solver|done]. }
  destruct (field w (dict_get d CONF_AUDIO)) as [audio|e3] eqn:E3.
  2:{ intros [= <- <-]. apply field_Raise in E3 as (t & E & Hr).
      exists CONF_AUDIO, ATTR_STREAM_URL, t. split; [set_solver|done]. }
  destruct (field w (dict_get d CONF_DISPLAY_URL)) as [display_url|e4] eqn:E4;
    [done|].
  intros [= <- <-]. apply field_Raise in E4 as (t & E & Hr).
  exists CONF_DISPLAY_URL, ATTR_REDIRECTION_URL, t. split; [set_solver|done].
Qed.

Lemma transform_error_rendering w w' item e :
  rendering w' = rendering w →
  transform_error w' item e → transform_error w item e.
Proof.
  intros H. destruct item; try done. simpl. by rewrite H.
Qed.

(** An item that is not accepted makes the transform raise. *)
Lemma process_item_raises item w :
  item_ok w item = false → ∃ e w', process_item item w = (Raise e, w').
Proof.
  intros H. destruct (process_item item w) as [[output|e] w'] eqn:E; [|eauto].
  assert (item_ok w item = true) by (apply process_item_item_ok; eauto).
  congruence.
Qed.

End Handler.

(** ** Claims about the request handler *)

Section HandlerClaims.
Context {K : Const} {B : Builtins}.

(** C1 (amended). For every request that passes password validation and
    names a briefing mapped to a list of N items: when each item is a
    dictionary whose templates render, [get] returns status 200 with
    exactly N records, the transforms of the items in the order of the
    configured list, every record holding a [uid] key and an
    [updateDate] key; when some item is not, [get] builds no response:
    the items before the first such item are transformed, and the
    exception its transform raises (the rendering error of one of its
    templates, or the [AttributeError] of an item that is not a
    dictionary) propagates out of [get]. *)
Theorem get_valid_request self request briefing_id items w :
  (validate_password self request w).1 = Ok true →
  flash_briefings self !! briefing_id = Some (VList items) →
  (Forall (λ item, item_ok w item = true) items →
   ∃ outputs w',
     get self request briefing_id w = (Ok (JsonResponse outputs OK), w') ∧
     transforms (emit (received briefing_id) w) items outputs w' ∧
     length outputs = length items ∧
     Forall (λ output, is_Some (output !! ATTR_UID)
                       ∧ is_Some (output !! ATTR_UPDATE_DATE)) outputs)
  ∧
  (∀ good bad rest,
     items = (good ++ bad :: rest)%list →
     Forall (λ item, item_ok w item = true) good →
     item_ok w bad = false →
     ∃ outputs w1 e w',
       transforms (emit (received briefing_id) w) good outputs w1 ∧
       process_item bad w1 = (Raise e, w') ∧
       transform_error w bad e ∧
       get self request briefing_id w = (Raise e, w')).
Proof.
  intros (password & E1 & E2)%validate_password_true E3. split.
  - intros Hok.
    destruct (transforms_total (emit (received briefing_id) w) items)
      as (outputs & w' & Ht); [done|].
    exists outputs, w'. split; [|split; [done|split]].
    + rewrite get_eq, E1, E2, E3. simpl.
      rewrite bool_decide_eq_true_2 by done.
      assert (E : get_loop items [] (emit (received briefing_id) w)
                  = (Ok outputs, w')) by (apply get_loop_Ok; eauto).
      by rewrite E.
    + by eapply transforms_length.
    + by eapply transforms_keys.
  - intros good bad rest -> Hgood Hbad.
    destruct (transforms_total (emit (received briefing_id) w) good)
      as (outputs & w1 & Ht); [done|].
    pose proof (transforms_rendering _ _ _ _ Ht) as Hr.
    destruct (process_item_raises bad w1) as (e & w' & Hraise).
    { rewrite <- Hbad. by apply item_ok_rendering. }
    exists outputs, w1, e, w'. split; [done|]. split; [done|]. split.
    + apply (transform_error_rendering _ w1); [done|].
      by eapply process_item_Raise_error.
    + rewrite get_eq, E1, E2, E3. cbv zeta.
      rewrite bool_decide_eq_true_2 by done.
      by rewrite (get_loop_first_error _ _ _ _ _ _ _ _ _ Ht Hraise).
Qed.

(** C2. For every request without the [api_password] query parameter,
    [get] returns status 401 with an empty body; apart from the two log
    records the world is untouched, and the outcome is the same under
    every configuration: nothing is looked up and no item is
    processed. *)
Theorem get_no_password self request briefing_id w :
  query_get (query request) API_PASSWORD = None →
  get self request briefing_id w
  = (Ok (BodyStatus [] UNAUTHORIZED),
     emit no_password (emit (received briefing_id) w)) ∧
  ∀ self', get self' request briefing_id w = get self request briefing_id w.
Proof.
  intros E. split; [by rewrite get_eq, E|].
  intros self'. by rewrite !get_eq, E.
Qed.

(** C4. For every request with a valid password whose briefing ID is
    missing from the configuration, or is mapped to a value that is not
    a list, [get] returns status 404 with an empty body. *)
Theorem get_unknown_briefing self request briefing_id w :
  (validate_password self request w).1 = Ok true →
  (flash_briefings self !! briefing_id = None
   ∨ ∃ v, flash_briefings self !! briefing_id = Some v
          ∧ isinstance_list v = false) →
  get self request briefing_id w
  = (Ok (BodyStatus [] NOT_FOUND),
     emit (no_briefing briefing_id) (emit (received briefing_id) w)).
Proof.
  intros (password & E1 & E2)%validate_password_true Hid.
  rewrite get_eq, E1, E2. simpl. rewrite bool_decide_eq_true_2 by done.
  destruct Hid as [->|(v & -> & Hv)]; [done|]. by destruct v.
Qed.



End HandlerClaims.

(** ** Further properties of the handler *)

Section Effects.
Context {K : Const} {B : Builtins}.

(** The transform reads the clock and the entropy source and does
    nothing else to the world. *)
Lemma process_item_effects item w r w' :
  process_item item w = (r, w') →
  clock w' = clock w ∧ urandom w' = urandom w ∧
  rendering w' = rendering w ∧ log w' = log w.
Proof.
  destruct item as [| | | | | |d];
    try (rewrite process_item_not_dict by done; by intros [= <- <-]).
  rewrite process_item_dict. unfold after_uid.
  destruct (field w (dict_get d CONF_TITLE)); [|by intros [= <- <-]].
  destruct (field w (dict_get d CONF_TEXT)); [|by intros [= <- <-]].
  destruct (field w (dict_get d CONF_AUDIO));
    [|intros [= <- <-]; by destruct (dict_get d CONF_UID)].
  destruct (field w (dict_get d CONF_DISPLAY_URL));
    intros [= <- <-]; by destruct (dict_get d CONF_UID).
Qed.

Lemma get_loop_effects items briefing w r w' :
  get_loop items briefing w = (r, w') →
  clock w' = clock w ∧ urandom w' = urandom w ∧
  rendering w' = rendering w ∧ log w' = log w.
Proof.
  rewrite get_loop_unconditional_eq.
  revert briefing w. induction items as [|item items IH]; intros briefing w;
    simpl.
  - by intros [= <- <-].
  - unfold mbind, M_bind.
    destruct (process_item item w) as [[output|e] w1] eqn:E;
      apply process_item_effects in E as (E1 & E2 & E3 & E4).
    + intros (F1 & F2 & F3 & F4)%IH. by rewrite F1, F2, F3, F4.
    + by intros [= <- <-].
Qed.

Lemma get_Json_inv self request briefing_id w outputs status w' :
  get self request briefing_id w = (Ok (JsonResponse outputs status), w') →
  status = OK ∧
  (validate_password self request w).1 = Ok true ∧
  ∃ items,
    flash_briefings self !! briefing_id = Some (VList items) ∧
    transforms (emit (received briefing_id) w) items outputs w'.
Proof.
  rewrite get_eq, validate_password_eq. cbv zeta.
  destruct (query_get (query request) API_PASSWORD) as [given|]; [|done].
  destruct (flash_briefings self !! CONF_PASSWORD)
    as [[| | |configured| | |]|]; try done.
  case_bool_decide; [|done].
  destruct (flash_briefings self !! briefing_id) as [[| | | | |items|]|];
    try done.
  destruct (get_loop items [] (emit (received briefing_id) w))
    as [[briefing|e] w1] eqn:E; [|done].
  intros [= <- <- <-]. apply get_loop_Ok in E as (new & -> & Ht).
  split; [done|split; [done|]]. by exists items.
Qed.

Lemma transforms_ticks w items outputs w' :
  transforms w items outputs w' →
  ticks w' = ticks w + length items ∧
  draws w' = draws w + length (filter (λ item, lacks_uid item = true) items).
Proof.
  induction 1 as [|w item output w1 items outputs w2 E _ [IH1 IH2]];
    [simpl; lia|].
  apply process_item_Ok in E
    as (d & title & text & audio & display_url & -> & _ & _ & _ & _ & _ & ->).
  rewrite IH1, IH2, filter_cons. unfold lacks_uid, after_uid. simpl.
  destruct (dict_get d CONF_UID); simpl; split; lia.
Qed.

Lemma transforms_dates w items outputs w' :
  transforms w items outputs w' →
  ∀ i output,
    outputs !! i = Some output →
    output !! ATTR_UPDATE_DATE
    = Some (VStr (strftime (clock w (ticks w + i)) DATE_FORMAT)).
Proof.
  induction 1 as [|w item output w1 items outputs w2 E _ IH];
    intros i o Hi; [done|].
  pose proof (process_item_effects _ _ _ _ E) as (Ec & _).
  apply process_item_Ok in E
    as (d & title & text & audio & display_url & -> & _ & _ & _ & _ & -> & ->).
  destruct i as [|i]; simpl in Hi.
  - injection Hi as <-. rewrite lookup_record_date.
    by rewrite Nat.add_0_r.
  - rewrite (IH _ _ Hi), Ec. do 4 f_equal.
    unfold after_uid. destruct (dict_get d CONF_UID); simpl; lia.
Qed.


End Effects.

Section FurtherProperties.
Context {K : Const} {B : Builtins}.

(** X1. [validate_password] returns [True], and then writes nothing to
    the log, exactly when the request carries an [api_password] whose
    first value is, byte for byte, the configured password string. *)
Theorem validate_password_decides self request w :
  validate_password self request w = (Ok true, w) ↔
  ∃ password,
    query_get (query request) API_PASSWORD = Some password ∧
    flash_briefings self !! CONF_PASSWORD = Some (VStr password).
Proof.
  split.
  - intros E. apply (validate_password_true self request w). by rewrite E.
  - intros H. apply validate_password_pass.
    by apply validate_password_true.
Qed.



(** X4. The password entry of the configuration is never served: a
    request with the right password that names [CONF_PASSWORD] as its
    briefing gets 404 with an empty body. *)
Theorem get_password_entry self request w :
  (validate_password self request w).1 = Ok true →
  get self request CONF_PASSWORD w
  = (Ok (BodyStatus [] NOT_FOUND),
     emit (no_briefing CONF_PASSWORD) (emit (received CONF_PASSWORD) w)).
Proof.
  intros (password & E1 & E2)%validate_password_true.
  rewrite get_eq, E1, E2. simpl. by rewrite bool_decide_eq_true_2.
Qed.

(** X5. A briefing configured as an empty list is served as status 200
    with an empty array; the clock and the entropy source are not read
    and only the debug record is logged. *)
Theorem get_empty_briefing self request briefing_id w :
  (validate_password self request w).1 = Ok true →
  flash_briefings self !! briefing_id = Some (VList []) →
  get self request briefing_id w
  = (Ok (JsonResponse [] OK), emit (received briefing_id) w).
Proof.
  intros (password & E1 & E2)%validate_password_true E3.
  rewrite get_eq, E1, E2, E3. simpl. by rewrite bool_decide_eq_true_2.
Qed.



(** X8. What [get] writes to the log: the debug record with the
    briefing ID first, and after it one error record exactly when the
    response is 401 or 404.  A 200 response or an escaping exception
    adds no error record, and no record carries the supplied or the
    configured password. *)
Theorem get_log self request briefing_id w :
  match get self request briefing_id w with
  | (Ok (BodyStatus _ UNAUTHORIZED), w') =>
      log w' = (log w ++ [received briefing_id; no_password])%list ∨
      log w' = (log w ++ [received briefing_id; wrong_password])%list
  | (Ok (BodyStatus _ NOT_FOUND), w') =>
      log w' = (log w ++ [received briefing_id; no_briefing briefing_id])%list
  | (Ok (BodyStatus _ OK), _) => False
  | (Ok (JsonResponse _ _), w') | (Raise _, w') =>
      log w' = (log w ++ [received briefing_id])%list
  end.
Proof.
  rewrite get_eq. cbv zeta.
  destruct (query_get (query request) API_PASSWORD) as [given|]; simpl;
    [|left; by rewrite <- app_assoc].
  destruct (flash_briefings self !! CONF_PASSWORD)
    as [[| | |configured| | |]|]; simpl; try done.
  case_bool_decide; simpl; [|right; by rewrite <- app_assoc].
  destruct (flash_briefings self !! briefing_id) as [[| | | | |items|]|];
    simpl; try (by rewrite <- app_assoc).
  destruct (get_loop items [] (emit (received briefing_id) w))
    as [[outputs|e] w'] eqn:E;
    by apply get_loop_effects in E as (_ & _ & _ & ->).
Qed.

(** X9. A 200 response costs one reading of the clock per item of the
    briefing, and one draw of entropy per item that has no UID of its
    own (none at all when every item has one). *)
Theorem get_clock_and_entropy self request briefing_id items w
    outputs status w' :
  flash_briefings self !! briefing_id = Some (VList items) →
  get self request briefing_id w = (Ok (JsonResponse outputs status), w') →
  ticks w' = ticks w + length items ∧
  draws w' = draws w + length (filter (λ item, lacks_uid item = true) items).
Proof.
  intros E (_ & _ & items' & E' & Ht)%get_Json_inv.
  rewrite E in E'. injection E' as <-.
  by apply transforms_ticks in Ht.
Qed.

(** X10. Every record of a response is stamped with a clock reading of
    its own: the record at position [i] carries the [i]-th reading taken
    during the request, so the records of one response need not share a
    timestamp. *)
Theorem get_update_dates self request briefing_id w outputs status w'
    i output :
  get self request briefing_id w = (Ok (JsonResponse outputs status), w') →
  outputs !! i = Some output →
  output !! ATTR_UPDATE_DATE
  = Some (VStr (strftime (clock w (ticks w + i)) DATE_FORMAT)).
Proof.
  intros (_ & _ & items & _ & Ht)%get_Json_inv Hi.
  by rewrite (transforms_dates _ _ _ _ Ht i output Hi).
Qed.

End FurtherProperties.

(** ** Further properties of the item transform *)

Section TransformProperties.
Context {K : Const} {B : Builtins}.

Lemma put_is_Some_inv key k o (m : gmap string value) :
  is_Some (put key o m !! k) → k = key ∨ is_Some (m !! k).
Proof.
  destruct o as [v|]; simpl; [|auto].
  rewrite lookup_insert. case_decide; auto.
Qed.

(** X11. The transform of an item depends on its [title], [text],
    [uid], [audio] and [display_url] entries only: two items that agree
    on these five keys are transformed alike, so any other entry of an
    item is ignored. *)
Theorem process_item_reads_five_keys (d1 d2 : gmap string value) (w : world) :
  (∀ key, key ∈ item_keys → dict_get d1 key = dict_get d2 key) →
  process_item (VDict d1) w = process_item (VDict d2) w.
Proof.
  intros H. rewrite !process_item_dict. unfold uid_of, after_uid.
  rewrite (H CONF_TITLE), (H CONF_TEXT), (H CONF_UID), (H CONF_AUDIO),
    (H CONF_DISPLAY_URL); [done|unfold item_keys; set_solver..].
Qed.

(** X12. A record returned by [process_item] has no key besides the six
    output keys: title text, main text, uid, stream URL, redirection URL
    and update date. *)
Theorem process_item_output_keys item w output w' key :
  process_item item w = (Ok output, w') →
  is_Some (output !! key) →
  key ∈ output_keys.
Proof.
  intros (d & title & text & audio & display_url
          & _ & _ & _ & _ & _ & -> & _)%process_item_Ok.
  unfold output_record, output_keys. rewrite lookup_insert.
  case_decide as E1; [subst; set_solver|].
  intros [->|H]%put_is_Some_inv; [set_solver|].
  apply put_is_Some_inv in H as [->|H]; [set_solver|].
  rewrite lookup_insert in H. case_decide as E2; [subst; set_solver|].
  apply put_is_Some_inv in H as [->|H]; [set_solver|].
  apply put_is_Some_inv in H as [->|H]; [set_solver|].
  rewrite lookup_empty in H. by destruct H.
Qed.

(** X13. An item without any entry is transformed into a record with
    exactly a generated uid and the update date; this takes one draw of
    entropy and one reading of the clock. *)
Theorem process_item_empty_item (w : world) :
  process_item (VDict ∅) w
  = (Ok (<[ATTR_UPDATE_DATE :=
             VStr (strftime (clock w (ticks w)) DATE_FORMAT)]>
           (<[ATTR_UID := VStr (str_UUID (next_uuid4 w))]> ∅)),
     tick (draw w)).
Proof.
  rewrite process_item_dict. unfold uid_of, after_uid, dict_get.
  by rewrite !lookup_empty.
Qed.

(** X14. [add_attribute_to_output] leaves the world as it is, also when
    it raises, and changes the output at most under [output_key]: every
    other entry of the dictionary it is given is kept. *)
Theorem add_attribute_to_output_frame item conf_key output output_key w :
  match add_attribute_to_output item conf_key output output_key w with
  | (Ok output', w') =>
      w' = w ∧ ∀ key, key ≠ output_key → output' !! key = output !! key
  | (Raise _, w') => w' = w
  end.
Proof.
  destruct item as [| | | | | |d];
    try (by rewrite add_attribute_not_dict).
  rewrite add_attribute_dict.
  destruct (field w (dict_get d conf_key)) as [o|e]; [|done].
  split; [done|]. intros key Hk. by apply lookup_put_ne.
Qed.

(** X15. The loop of [get] stops at the first item whose transform
    raises: that exception escapes [get], the items after it are not
    transformed, and the records built before it are dropped. *)
Theorem get_first_error self request briefing_id good bad rest w
    outputs w1 e w2 :
  (validate_password self request w).1 = Ok true →
  flash_briefings self !! briefing_id = Some (VList (good ++ bad :: rest)) →
  transforms (emit (received briefing_id) w) good outputs w1 →
  process_item bad w1 = (Raise e, w2) →
  get self request briefing_id w = (Raise e, w2).
Proof.
  intros (password & E1 & E2)%validate_password_true E3 Ht Hbad.
  rewrite get_eq, E1, E2, E3. simpl. rewrite bool_decide_eq_true_2 by done.
  by rewrite (get_loop_first_error _ _ _ _ _ _ _ _ _ Ht Hbad).
Qed.

(** X16. A briefing list whose first element is not a dictionary makes
    [get] raise the [AttributeError] of the missing [get] method, before
    the clock or the entropy source is read. *)
Theorem get_item_not_dict self request briefing_id item rest w :
  (validate_password self request w).1 = Ok true →
  flash_briefings self !! briefing_id = Some (VList (item :: rest)) →
  (∀ d, item ≠ VDict d) →
  get self request briefing_id w
  = (Raise (AttributeError "get"), emit (received briefing_id) w).
Proof.
  intros (password & E1 & E2)%validate_password_true E3 Hitem.
  assert (El : get_loop (item :: rest) [] (emit (received briefing_id) w)
               = (Raise (AttributeError "get"),
                  emit (received briefing_id) w)).
  { eapply (get_loop_first_error [] item rest [] _ []);
      [constructor|by apply process_item_not_dict]. }
  rewrite get_eq, E1, E2, E3. cbv zeta.
  by rewrite bool_decide_eq_true_2, El.
Qed.

(** X17. A template given as the UID of an item is not rendered:
    [get_uid] stringifies the template object, so the transform succeeds
    and draws no entropy even when that template could not be
    rendered. *)
Theorem process_item_uid_template (d : gmap string value) (t : Template)
    (w : world) :
  output_keys_distinct →
  templates_render w d = true →
  dict_get d CONF_UID = VTemplate t →
  ∃ output,
    process_item (VDict d) w = (Ok output, tick w) ∧
    output !! ATTR_UID = Some (VStr (repr_object (VTemplate t))).
Proof.
  intros distinct
    (title & text & audio & display_url & E1 & E2 & E3 & E4)
    %templates_render_true Hu.
  eexists. split.
  - rewrite process_item_dict, E1, E2, E3, E4. unfold after_uid.
    by rewrite Hu.
  - rewrite lookup_record_uid by done. unfold uid_of. by rewrite Hu.
Qed.

End TransformProperties.

(** ** The shape of a generated identifier *)

Section GeneratedUid.
Context {K : Const} {B : Builtins}.

(** X18. For an item without a UID, [get_uid] returns an identifier of
    36 characters with hyphens after the 8th, 12th, 16th and 20th
    hexadecimal digit and with the version digit [4], whatever the
    entropy source delivers. *)
Theorem get_uid_generated_shape (d : gmap string value) (w : world) :
  dict_get d CONF_UID = VNone →
  ∃ uid,
    get_uid (VDict d) w = (Ok uid, draw w) ∧
    String.length uid = 36 ∧
    Forall (λ i, list_ascii_of_string uid !! i = Some "-"%char)
      [8; 13; 18; 23] ∧
    list_ascii_of_string uid !! 14 = Some "4"%char.
Proof.
  intros Hu. exists (str_UUID (next_uuid4 w)).
  split; [by rewrite get_uid_dict, Hu|].
  unfold str_UUID.
  rewrite length_string_of_list_ascii, list_ascii_of_string_of_list_ascii.
  destruct (hyphens_lookup (hex 32 (next_uuid4 w)) (length_hex _ _))
    as (H0 & H1 & H2 & H3 & H4 & H5).
  split; [exact H0|]. split; [by repeat constructor|].
  rewrite H5, hex_lookup by lia. unfold next_uuid4.
  change (16 ^ N.of_nat (32 - 1 - 12))%N with (2 ^ 76)%N.
  change 16%N with (2 ^ 4)%N.
  by rewrite UUID_version4_version.
Qed.

End GeneratedUid.

(** * The development at the constants of Home Assistant *)

#[local] Existing Instance alexa_const.
#[local] Existing Instance plain_builtins.

Lemma alexa_keys_distinct : output_keys_distinct.
Proof. apply (bool_decide_unpack _). vm_compute. exact I. Defined.

(** The end-to-end example of the specification. *)
Example get_news :
  (get example_view (example_request "secret") "news" example_world).1
  = Ok (JsonResponse
          [ <["titleText" := VStr "Static"]>
            (<["mainText" := VStr "Body"]>
             (<["uid" := VStr "abc-1"]>
              (<["updateDate" := VStr "2026-11-04T09:30:00Z"]> ∅))) ] OK).
Proof. by vm_compute. Qed.

Example get_news_wrong_password :
  (get example_view (example_request "wrong") "news" example_world).1
  = Ok (BodyStatus [] UNAUTHORIZED).
Proof. by vm_compute. Qed.

(** A password of the right length that differs in its last byte. *)
Example get_news_near_match :
  (get example_view (example_request "secreT") "news" example_world).1
  = Ok (BodyStatus [] UNAUTHORIZED).
Proof. by vm_compute. Qed.

Example get_unknown :
  (get example_view (example_request "secret") "unknown" example_world).1
  = Ok (BodyStatus [] NOT_FOUND).
Proof. by vm_compute. Qed.

(** A generated identifier has the shape of a version-4 UUID. *)
Example process_item_generated_uid :
  match (process_item (VDict templated_item) example_world).1 with
  | Ok output => output !! "uid"
  | Raise _ => None
  end = Some (VStr "01234567-89ab-4def-8123-456789abcdef").
Proof. by vm_compute. Qed.

Lemma get_valid_request_witness :
  (∃ output1 output2 w',
     get mixed_view (example_request "secret") "news" example_world
     = (Ok (JsonResponse [output1; output2] OK), w') ∧
     output1 !! "uid" = Some (VStr "abc-1") ∧
     output2 !! "titleText" = Some (VStr "Hello")) ∧
  (∃ w',
     get half_failing_view (example_request "secret") "news" example_world
     = (Raise (TemplateError "ZeroDivisionError: division by zero"), w')).
Proof.
  split.
  - destruct (get_valid_request mixed_view (example_request "secret") "news"
                [static_item; VDict templated_item] example_world)
      as [HA _].
    + vm_compute. reflexivity.
    + vm_compute. reflexivity.
    + destruct HA as (outputs & w' & E & Ht & _ & _).
      { repeat constructor. }
      apply transforms_cons_inv in Ht as (o1 & w1 & outs1 & -> & P1 & Ht).
      apply transforms_cons_inv in Ht as (o2 & w2 & outs2 & -> & P2 & Ht).
      apply transforms_nil_inv in Ht as [-> ->].
      exists o1, o2, w2. split; [exact E|].
      unfold static_item in P1. rewrite process_item_dict in P1.
      change (Ok (output_record (Some (VStr "Static")) (Some (VStr "Body"))
                    None None "abc-1"
                    (strftime (clock example_world 0) DATE_FORMAT)),
              tick (emit (received "news") example_world))
        with (Ok o1, w1) in P1.
      injection P1 as <- <-.
      rewrite process_item_dict in P2.
      change (Ok (output_record (Some (VStr "Hello")) (Some (VInt 42))
                    None None
                    (str_UUID
                       (next_uuid4
                          (tick (emit (received "news") example_world))))
                    (strftime (clock example_world 1) DATE_FORMAT)),
              tick (draw (tick (emit (received "news") example_world))))
        with (Ok o2, w2) in P2.
      injection P2 as <- _.
      split.
      * exact (lookup_record_uid _ _ _ _ _ _ alexa_keys_distinct).
      * exact (lookup_record_title _ _ _ _ _ _ alexa_keys_distinct).
  - destruct (get_valid_request half_failing_view (example_request "secret")
                "news" [VDict templated_item; failing_item] example_world)
      as [_ HB].
    + vm_compute. reflexivity.
    + vm_compute. reflexivity.
    + destruct (HB [VDict templated_item] failing_item [] eq_refl)
        as (outputs & w1 & e & w' & Ht & P & _ & E).
      { repeat constructor. }
      { vm_compute. reflexivity. }
      exists w'. rewrite E.
      assert (P' : process_item failing_item w1
                   = (Raise (TemplateError
                               "ZeroDivisionError: division by zero"), w1)).
      { unfold failing_item. rewrite process_item_dict.
        apply transforms_rendering in Ht. unfold field, dict_get.
        rewrite Ht. reflexivity. }
      rewrite P' in P. by injection P as <- <-.
Defined.

(** C1, as stated, fails: the request passes password validation and
    names a briefing mapped to a list of one item, and [get] raises the
    rendering error of the item's title instead of returning a
    response. *)
Lemma get_valid_request_template_error :
  (validate_password failing_view (example_request "secret") example_world).1
  = Ok true ∧
  flash_briefings failing_view !! "news" = Some (VList [failing_item]) ∧
  (get failing_view (example_request "secret") "news" example_world).1
  = Raise (TemplateError "ZeroDivisionError: division by zero").
Proof. by vm_compute. Qed.

Lemma get_no_password_witness :
  get example_view {| query := [("other", "secret")] |} "news" example_world
  = (Ok (BodyStatus [] UNAUTHORIZED),
     emit no_password (emit (received "news") example_world)) ∧
  ∀ self',
    get self' {| query := [("other", "secret")] |} "news" example_world
    = get example_view {| query := [("other", "secret")] |} "news"
        example_world.
Proof.
  refine (get_no_password example_view {| query := [("other", "secret")] |}
            "news" example_world _).
  vm_compute. reflexivity.
Defined.

Lemma get_unknown_briefing_witness :
  get example_view (example_request "secret") "password" example_world
  = (Ok (BodyStatus [] NOT_FOUND),
     emit (no_briefing "password") (emit (received "password") example_world)).
Proof.
  refine (get_unknown_briefing example_view (example_request "secret")
            "password" example_world _ _).
  - vm_compute. reflexivity.
  - right. exists (VStr "secret"). split; vm_compute; reflexivity.
Defined.

Lemma process_item_fields_witness :
  ∃ output w',
    process_item (VDict templated_item) example_world = (Ok output, w') ∧
    ∃ s, rendering example_world {| template := "Hello" |} = Ok s
         ∧ output !! "titleText" = Some (VStr s).
Proof.
  refine (process_item_fields templated_item example_world
            "title" "titleText" alexa_keys_distinct _ _).
  - left.
  - vm_compute. reflexivity.
Defined.



(** Two successive transforms of an item without a UID, the second in
    the world the first one left. *)
Example process_item_twice :
  let first := process_item (VDict templated_item) example_world in
  let second := process_item (VDict templated_item) first.2 in
  match first.1, second.1 with
  | Ok output1, Ok output2 => (output1 !! "uid", output2 !! "uid")
  | _, _ => (None, None)
  end
  = (Some (VStr "01234567-89ab-4def-8123-456789abcdef"),
     Some (VStr "02468acf-1357-4bde-8246-8acf13579bde")).
Proof. by vm_compute. Qed.


(** ** The further properties at concrete inputs *)



Lemma get_password_entry_witness :
  get mixed_view (example_request "secret") "password" example_world
  = (Ok (BodyStatus [] NOT_FOUND),
     emit (no_briefing "password") (emit (received "password") example_world)).
Proof.
  refine (get_password_entry mixed_view (example_request "secret")
            example_world _).
  vm_compute. reflexivity.
Defined.

Lemma get_empty_briefing_witness :
  get mixed_view (example_request "secret") "empty" example_world
  = (Ok (JsonResponse [] OK), emit (received "empty") example_world).
Proof.
  refine (get_empty_briefing mixed_view (example_request "secret") "empty"
            example_world _ _).
  - vm_compute. reflexivity.
  - vm_compute. reflexivity.
Defined.



Lemma get_clock_and_entropy_witness :
  ∃ outputs w',
    get mixed_view (example_request "secret") "news" example_world
    = (Ok (JsonResponse outputs OK), w') ∧
    ticks w' = 2 ∧ draws w' = 1.
Proof.
  assert (E : ∃ outputs w',
            get mixed_view (example_request "secret") "news" example_world
            = (Ok (JsonResponse outputs OK), w'))
    by (eexists _, _; vm_compute; reflexivity).
  destruct E as (outputs & w' & E). exists outputs, w'.
  split; [exact E|].
  exact (get_clock_and_entropy mixed_view (example_request "secret") "news"
           [static_item; VDict templated_item] example_world outputs OK w'
           eq_refl E).
Defined.

Lemma get_update_dates_witness :
  ∃ outputs w' output,
    get mixed_view (example_request "secret") "news" example_world
    = (Ok (JsonResponse outputs OK), w') ∧
    outputs !! 1 = Some output ∧
    output !! "updateDate" = Some (VStr "2026-11-04T09:30:01Z").
Proof.
  assert (E : ∃ outputs w' output,
            get mixed_view (example_request "secret") "news" example_world
            = (Ok (JsonResponse outputs OK), w')
            ∧ outputs !! 1 = Some output)
    by (eexists _, _, _; split; vm_compute; reflexivity).
  destruct E as (outputs & w' & output & E & Hi).
  exists outputs, w', output. split; [exact E|]. split; [exact Hi|].
  exact (get_update_dates mixed_view (example_request "secret") "news"
           example_world outputs OK w' 1 output E Hi).
Defined.

Lemma process_item_reads_five_keys_witness :
  process_item (VDict (<["colour" := VStr "red"]> templated_item))
    example_world
  = process_item (VDict templated_item) example_world.
Proof.
  refine (process_item_reads_five_keys
            (<["colour" := VStr "red"]> templated_item) templated_item
            example_world _).
  intros key Hkey. unfold item_keys in Hkey.
  repeat (apply elem_of_cons in Hkey as [->|Hkey]);
    [vm_compute; reflexivity..|by apply elem_of_nil in Hkey].
Defined.

Lemma process_item_output_keys_witness :
  "uid" ∈ [ "titleText"; "mainText"; "uid"; "streamUrl";
            "redirectionURL"; "updateDate" ].
Proof.
  refine (process_item_output_keys (VDict ∅) example_world
            (output_record None None None None (uid_of example_world ∅)
               (strftime (clock example_world 0) DATE_FORMAT))
            (tick (draw example_world)) "uid" _ _).
  - rewrite process_item_dict. reflexivity.
  - exact (record_has_uid None None None None (uid_of example_world ∅)
             (strftime (clock example_world 0) DATE_FORMAT)).
Defined.

Lemma get_first_error_witness :
  ∃ w2,
    get half_failing_view (example_request "secret") "news" example_world
    = (Raise (TemplateError "ZeroDivisionError: division by zero"), w2).
Proof.
  assert (E : ∃ outputs w1,
            transforms (emit (received "news") example_world)
              [VDict templated_item] outputs w1).
  { eexists _, _.
    eapply transforms_cons; [rewrite process_item_dict; reflexivity|].
    constructor. }
  destruct E as (outputs & w1 & Ht).
  assert (Hbad : ∃ w2,
            process_item failing_item w1
            = (Raise (TemplateError "ZeroDivisionError: division by zero"),
               w2)).
  { exists w1. unfold failing_item. rewrite process_item_dict.
    apply transforms_rendering in Ht. unfold field, dict_get.
    rewrite Ht. reflexivity. }
  destruct Hbad as (w2 & Hbad). exists w2.
  refine (get_first_error half_failing_view (example_request "secret")
            "news" [VDict templated_item] failing_item [] example_world
            outputs w1 _ w2 _ _ Ht Hbad).
  - vm_compute. reflexivity.
  - vm_compute. reflexivity.
Defined.

Lemma get_item_not_dict_witness :
  get malformed_view (example_request "secret") "news" example_world
  = (Raise (AttributeError "get"), emit (received "news") example_world).
Proof.
  refine (get_item_not_dict malformed_view (example_request "secret") "news"
            (VStr "Static") [static_item] example_world _ _ _).
  - vm_compute. reflexivity.
  - vm_compute. reflexivity.
  - discriminate.
Defined.

Lemma process_item_uid_template_witness :
  ∃ output,
    process_item (VDict template_uid_item) example_world
    = (Ok output, tick example_world) ∧
    output !! "uid"
    = Some (VStr "Template<template=({{ 1 / 0 }}) renders=0>").
Proof.
  refine (process_item_uid_template template_uid_item
            {| template := "{{ 1 / 0 }}" |} example_world
            alexa_keys_distinct _ _).
  - vm_compute. reflexivity.
  - vm_compute. reflexivity.
Defined.

Lemma get_uid_generated_shape_witness :
  ∃ uid,
    get_uid (VDict templated_item) example_world
    = (Ok uid, draw example_world) ∧
    String.length uid = 36 ∧
    Forall (λ i, list_ascii_of_string uid !! i = Some "-"%char)
      [8; 13; 18; 23] ∧
    list_ascii_of_string uid !! 14 = Some "4"%char.
Proof.
  refine (get_uid_generated_shape templated_item example_world _).
  vm_compute. reflexivity.
Defined.
